(** * The [explore] command of the Timesketch CLI client

    A shallow embedding of
    [cli_client/python/timesketch_cli_client/commands/explore.py]
    and the properties of its filter-chip builder, search wrapper, output
    formatter, query describer and command body.

    Python objects are embedded as a small universe of values ([pyval]);
    exceptions are explicit ([result]); the calls that leave the module
    (the sketch object, [click.echo]) are recorded in a trace ([IO]). *)

From Stdlib Require Import String Ascii List ZArith Bool Lia.
Import ListNotations.

Local Open Scope string_scope.
Local Open Scope list_scope.

Set Warnings "-register-all".

(** ** Python values *)

(** The objects the module handles: [None], booleans, integers, strings,
    tuples, lists and dicts with string keys.  A dict keeps its insertion
    order, as Python's does. *)
Inductive pyval : Type :=
| PyNone
| PyBool (b : bool)
| PyInt (n : Z)
| PyStr (s : string)
| PyTuple (items : list pyval)
| PyList (items : list pyval)
| PyDict (items : list (string * pyval)).

Definition dict : Type := list (string * pyval).

(** The exceptions that can cross the module. *)
Inductive exn : Type :=
| KeyError (key : string)
| IndexError
| TypeError
| AttributeError
| Raised (msg : string).

Definition result (A : Type) : Type := (exn + A)%type.

Definition res_bind {A B : Type} (m : result A) (k : A -> result B) : result B :=
  match m with
  | inl e => inl e
  | inr a => k a
  end.

Notation "'let?' x ':=' m 'in' k" := (res_bind m (fun x => k))
  (at level 10, x name, m at level 100, k at level 200).

(** [d[key]] *)
Fixpoint dict_get (key : string) (d : dict) : option pyval :=
  match d with
  | [] => None
  | (k, v) :: rest => if String.eqb k key then Some v else dict_get key rest
  end.

(** [d[key] = v]: an existing key keeps its position, a new one goes last. *)
Fixpoint dict_set (key : string) (v : pyval) (d : dict) : dict :=
  match d with
  | [] => [(key, v)]
  | (k, w) :: rest =>
      if String.eqb k key then (k, v) :: rest else (k, w) :: dict_set key v rest
  end.

(** [x == s] for a string literal [s]: only a string equals a string. *)
Definition py_eq_str (x : pyval) (s : string) : bool :=
  match x with
  | PyStr t => String.eqb t s
  | _ => false
  end.

(** [x in [s1, s2, ...]] for a list of string literals. *)
Definition py_in_strs (x : pyval) (l : list string) : bool :=
  existsb (py_eq_str x) l.

(** [needle in hay] on two strings: the substring test. *)
Fixpoint str_contains (needle hay : string) : bool :=
  if String.prefix needle hay then true
  else match hay with
       | EmptyString => false
       | String _ rest => str_contains needle rest
       end.

(** [s in container] for a string [s]: substring of a string, element of a
    tuple or list, key of a dict; the other objects are not iterable. *)
Definition py_contains (s : string) (container : pyval) : result bool :=
  match container with
  | PyStr hay => inr (str_contains s hay)
  | PyTuple items | PyList items => inr (existsb (fun x => py_eq_str x s) items)
  | PyDict items => inr (existsb (fun kv => String.eqb (fst kv) s) items)
  | PyNone | PyBool _ | PyInt _ => inl TypeError
  end.

(** [x[i]] for an integer literal [i]. *)
Definition py_index (x : pyval) (i : nat) : result pyval :=
  match x with
  | PyTuple items | PyList items =>
      match nth_error items i with
      | Some v => inr v
      | None => inl IndexError
      end
  | PyStr s =>
      match String.get i s with
      | Some c => inr (PyStr (String c EmptyString))
      | None => inl IndexError
      end
  | PyDict _ => inl (KeyError "")
  | PyNone | PyBool _ | PyInt _ => inl TypeError
  end.

(** [isinstance(x, str)] *)
Definition isinstance_str (x : pyval) : bool :=
  match x with
  | PyStr _ => true
  | _ => false
  end.

(** Truth value of an optional string ([None] and [''] are false) and of a
    tuple (the empty one is false). *)
Definition truthy_str (o : option string) : bool :=
  match o with
  | Some s => negb (String.eqb s "")
  | None => false
  end.

(** The string behind an option that is known to hold one. *)
Definition the_str (o : option string) : string :=
  match o with
  | Some s => s
  | None => ""
  end.

Definition truthy_tuple {A : Type} (l : list A) : bool :=
  match l with
  | [] => false
  | _ :: _ => true
  end.

(** ** Tables *)

(** A pandas DataFrame as its ordered, named columns. *)
Definition DataFrame : Type := list (string * list pyval).

Definition column_names (dataframe : DataFrame) : list string :=
  map fst dataframe.

Definition has_column (name : string) (dataframe : DataFrame) : bool :=
  existsb (String.eqb name) (column_names dataframe).

(** [dataframe.drop(columns=...)]: every column of a listed name goes; a
    listed name that is no column raises [KeyError]. *)
Definition drop (columns : list string) (dataframe : DataFrame) : result DataFrame :=
  match find (fun c => negb (has_column c dataframe)) columns with
  | Some missing => inl (KeyError missing)
  | None =>
      inr (filter (fun col => negb (existsb (String.eqb (fst col)) columns)) dataframe)
  end.

(** ** The library functions the module calls *)

Class Runtime : Type := {
  (** [str(x)] of an object that is not a string *)
  repr : pyval -> string;
  (** [json.dumps(obj, indent=indent)] *)
  json_dumps : pyval -> option nat -> string;
  (** [dataframe.to_string(index=index, header=header)] *)
  to_string : DataFrame -> bool -> bool -> string;
  (** [dataframe.to_csv(index=index, header=header)] *)
  to_csv : DataFrame -> bool -> bool -> string;
  (** [tabulate(dataframe, headers=headers, tablefmt=tablefmt,
      showindex=showindex)]; [headers] left out is [None] here *)
  tabulate : DataFrame -> option string -> string -> bool -> string
}.

(** ['{}'.format(x)] *)
Definition py_str `{Runtime} (x : pyval) : string :=
  match x with
  | PyStr s => s
  | _ => repr x
  end.

(** ** Filter chips *)

Definition _create_empty_chip : dict :=
  [ ("field", PyStr "");
    ("value", PyStr "");
    ("type", PyNone);
    ("operator", PyStr "must") ].

Section Chips.
Context `{Runtime}.

(** The body of the loop over labels. *)
Definition label_chip (label : pyval) : pyval :=
  let label :=
    if py_in_strs label ["star"; "comment"]
    then PyStr ("__ts_" ++ py_str label)
    else label in
  let chip := _create_empty_chip in
  let chip := dict_set "value" label chip in
  let chip := dict_set "type" (PyStr "label") chip in
  PyDict chip.

(** The body of the loop over time ranges. *)
Definition datetime_range_chip (time_range : pyval) : result pyval :=
  let time_range :=
    if isinstance_str time_range
    then PyTuple [time_range; time_range]
    else time_range in
  let chip := _create_empty_chip in
  let? t0 := py_index time_range 0 in
  let? t1 := py_index time_range 1 in
  let chip := dict_set "value" (PyStr (py_str t0 ++ "," ++ py_str t1)) chip in
  let chip := dict_set "type" (PyStr "datetime_range") chip in
  inr (PyDict chip).

Fixpoint for_labels (values : list pyval) (chips : list pyval) : list pyval :=
  match values with
  | [] => chips
  | label :: rest => for_labels rest (chips ++ [label_chip label])
  end.

Fixpoint for_time_ranges (values : list pyval) (chips : list pyval)
  : result (list pyval) :=
  match values with
  | [] => inr chips
  | time_range :: rest =>
      let? chip := datetime_range_chip time_range in
      for_time_ranges rest (chips ++ [chip])
  end.

Definition get_filter_chips (values : list pyval) (chip_type : string)
  : result (list pyval) :=
  let chips := [] in
  if String.eqb chip_type "label" then
    inr (for_labels values chips)
  else if String.eqb chip_type "datetime_range" then
    for_time_ranges values chips
  else
    inr chips.

End Chips.

(** ** The outside world *)

(** A saved view: a query string and a query filter. *)
Record View : Type := {
  view_query_string : string;
  view_query_filter : pyval
}.

(** The sketch object of the API client. *)
Record Sketch : Type := {
  (** [sketch.explore(query_string=, query_filter=, return_fields=,
      as_pandas=)] *)
  sketch_explore : string -> pyval -> pyval -> bool -> result DataFrame;
  (** [sketch.get_view(view_name=)] *)
  sketch_get_view : string -> result View
}.

(** [ctx.obj] *)
Record Context : Type := {
  obj_sketch : Sketch;
  obj_output_format : string
}.

(** What an invocation does that can be seen from outside, in order. *)
Inductive event : Type :=
| GetView (view_name : string)
| Explore (query_string : string) (query_filter : pyval)
          (return_fields : pyval) (as_pandas : bool)
| Echo (message : option string) (nl : bool).

(** A computation: the events it performed and how it ended. *)
Definition IO (A : Type) : Type := (list event * result A)%type.

Definition io_ret {A : Type} (a : A) : IO A := ([], inr a).

Definition io_bind {A B : Type} (m : IO A) (k : A -> IO B) : IO B :=
  match m with
  | (t, inl e) => (t, inl e)
  | (t, inr a) => let (t', r) := k a in (t ++ t', r)
  end.

Definition io_lift {A : Type} (r : result A) : IO A := ([], r).

(** An outside call: the event, then what the call answered. *)
Definition io_call {A : Type} (e : event) (answer : result A) : IO A :=
  ([e], answer).

Notation "x <- m ;; k" := (io_bind m (fun x => k))
  (at level 100, m at level 99, k at level 200, right associativity).

Definition trace {A : Type} (m : IO A) : list event := fst m.
Definition outcome {A : Type} (m : IO A) : result A := snd m.

(** [click.echo(message, nl=nl)] *)
Definition click_echo (message : option string) (nl : bool) : IO unit :=
  io_call (Echo message nl) (inr tt).

Definition is_explore (e : event) : bool :=
  match e with
  | Explore _ _ _ _ => true
  | _ => false
  end.

(** ** Search, output and description *)

Section Commands.
Context `{Runtime}.

Definition search (sketch : Sketch) (query_string : string)
           (query_filter : pyval) (return_fields : pyval) : IO DataFrame :=
  dataframe <- io_call (Explore query_string query_filter return_fields true)
                 (sketch_explore sketch query_string query_filter
                    return_fields true) ;;
  requested <- io_lift (py_contains "label" return_fields) ;;
  if negb requested then
    io_lift (drop ["label"] dataframe)
  else
    io_ret dataframe.

Definition format_output (dataframe : DataFrame) (output_format : string)
           (show_headers : bool) : option string :=
  let result := None in
  if String.eqb output_format "text" then
    Some (to_string dataframe false show_headers)
  else if String.eqb output_format "csv" then
    Some (to_csv dataframe false show_headers)
  else if String.eqb output_format "tabular" then
    if show_headers then
      Some (tabulate dataframe (Some "keys") "psql" false)
    else
      Some (tabulate dataframe None "psql" false)
  else
    result.

Definition describe_query (query_string : string) (query_filter : pyval)
  : IO unit :=
  _ <- click_echo (Some ("Query string: " ++ query_string)%string) true ;;
  click_echo
    (Some ("Filter: " ++ json_dumps query_filter (Some 2%nat))%string) true.

(** [query_filter['chips'].extend(chips)] *)
Definition extend_chips (query_filter : pyval) (chips : list pyval)
  : result pyval :=
  match query_filter with
  | PyDict items =>
      match dict_get "chips" items with
      | Some (PyList old) =>
          inr (PyDict (dict_set "chips" (PyList (old ++ chips)) items))
      | Some _ => inl AttributeError
      | None => inl (KeyError "chips")
      end
  | _ => inl TypeError
  end.

(** The values [click] hands over: [--time] gives strings, [--time-range]
    (two arguments each) gives pairs of strings, [--label] gives strings. *)
Definition time_values (times : list string) : list pyval :=
  map PyStr times.

Definition time_range_values (time_ranges : list (string * string))
  : list pyval :=
  map (fun r => PyTuple [PyStr (fst r); PyStr (snd r)]) time_ranges.

Definition label_values (labels : list string) : list pyval :=
  map PyStr labels.

Definition explore_group (ctx : Context) (query : string)
           (times : list string) (time_ranges : list (string * string))
           (labels : list string) (header : bool) (output : option string)
           (return_fields : string) (order : string) (limit : Z)
           (view : option string) (describe : bool) : IO unit :=
  let sketch := obj_sketch ctx in
  let output_format := obj_output_format ctx in
  let output_format :=
    if truthy_str output then the_str output else output_format in
  let new_line := true in
  let new_line := if String.eqb output_format "csv" then false else new_line in
  let query_filter :=
    PyDict [ ("from", PyInt 0);
             ("terminate_after", PyInt limit);
             ("size", PyInt limit);
             ("indices", PyList [PyStr "_all"]);
             ("order", PyStr order);
             ("chips", PyList []) ] in
  if truthy_str view then
    view <- io_call (GetView (the_str view))
              (sketch_get_view sketch (the_str view)) ;;
    let query := view_query_string view in
    let query_filter := view_query_filter view in
    if describe then
      describe_query query query_filter
    else
      result <- search sketch query query_filter (PyStr return_fields) ;;
      click_echo (format_output result output_format header) new_line
  else
    query_filter <- io_lift
      (if truthy_tuple time_ranges then
         let? chips := get_filter_chips (time_range_values time_ranges)
                         "datetime_range" in
         extend_chips query_filter chips
       else inr query_filter) ;;
    query_filter <- io_lift
      (if truthy_tuple times then
         let? chips := get_filter_chips (time_values times)
                         "datetime_range" in
         extend_chips query_filter chips
       else inr query_filter) ;;
    query_filter <- io_lift
      (if truthy_tuple labels then
         let? chips := get_filter_chips (label_values labels) "label" in
         extend_chips query_filter chips
       else inr query_filter) ;;
    if describe then
      describe_query query query_filter
    else
      result <- search sketch query query_filter (PyStr return_fields) ;;
      click_echo (format_output result output_format header) new_line.

End Commands.

(** ** The command line *)

(** The options of [explore] as the [click] decorators declare them. *)
Record Options : Type := {
  opt_query : string;
  opt_times : list string;
  opt_time_ranges : list (string * string);
  opt_labels : list string;
  opt_header : bool;
  opt_output : option string;
  opt_return_fields : string;
  opt_order : string;
  opt_limit : Z;
  opt_view : option string;
  opt_describe : bool
}.

(** The value of every option that is left out. *)
Definition default_options : Options := {|
  opt_query := "*";
  opt_times := [];
  opt_time_ranges := [];
  opt_labels := [];
  opt_header := true;
  opt_output := None;
  opt_return_fields := "";
  opt_order := "asc";
  opt_limit := 40;
  opt_view := None;
  opt_describe := false
|}.

Definition invoke `{Runtime} (ctx : Context) (o : Options) : IO unit :=
  explore_group ctx (opt_query o) (opt_times o) (opt_time_ranges o)
    (opt_labels o) (opt_header o) (opt_output o) (opt_return_fields o)
    (opt_order o) (opt_limit o) (opt_view o) (opt_describe o).

(** ** Vocabulary of the properties *)

(** A chip as the properties spell it out. *)
Definition chip_of (value type : string) : pyval :=
  PyDict [ ("field", PyStr "");
           ("value", PyStr value);
           ("type", PyStr type);
           ("operator", PyStr "must") ].

(** The reserved names of the two built-in labels. *)
Definition reserved_label (label : string) : string :=
  if String.eqb label "star" then "__ts_star"
  else if String.eqb label "comment" then "__ts_comment"
  else label.

(** A time input: one timestamp, or a start and an end. *)
Inductive time_input : Type :=
| Timestamp (t : string)
| TimeRange (start_ end_ : string).

Definition time_input_value (i : time_input) : pyval :=
  match i with
  | Timestamp t => PyStr t
  | TimeRange a b => PyTuple [PyStr a; PyStr b]
  end.

Definition time_input_text (i : time_input) : string :=
  match i with
  | Timestamp t => t ++ "," ++ t
  | TimeRange a b => a ++ "," ++ b
  end.

(** The query filter of an invocation without a view, with its chips. *)
Definition filter_with_chips (limit : Z) (order : string) (chips : list pyval)
  : pyval :=
  PyDict [ ("from", PyInt 0);
           ("terminate_after", PyInt limit);
           ("size", PyInt limit);
           ("indices", PyList [PyStr "_all"]);
           ("order", PyStr order);
           ("chips", PyList chips) ].

(** The chips of the command line: time ranges, then times, then labels. *)
Definition cli_chips (time_ranges : list (string * string))
           (times : list string) (labels : list string) : list pyval :=
  map (fun r => chip_of (fst r ++ "," ++ snd r) "datetime_range") time_ranges
  ++ map (fun t => chip_of (t ++ "," ++ t) "datetime_range") times
  ++ map (fun label => chip_of (reserved_label label) "label") labels.

(** What both paths of the command do once the query and the filter are
    resolved: describe them, or search and print the table. *)
Definition describe_or_search `{Runtime} (ctx : Context) (header : bool)
           (output : option string) (return_fields : string) (describe : bool)
           (query : string) (query_filter : pyval) : IO unit :=
  let output_format :=
    if truthy_str output then the_str output else obj_output_format ctx in
  if describe then
    describe_query query query_filter
  else
    result <- search (obj_sketch ctx) query query_filter (PyStr return_fields) ;;
    click_echo (format_output result output_format header)
      (if String.eqb output_format "csv" then false else true).

(** The fields a comma-separated [--return-fields] value asks for. *)
Fixpoint split_commas (s : string) : list string :=
  match s with
  | EmptyString => [EmptyString]
  | String c rest =>
      if Ascii.eqb c ","%char then EmptyString :: split_commas rest
      else match split_commas rest with
           | [] => [String c EmptyString]
           | w :: ws => String c w :: ws
           end
  end.

(** ** A runtime and a sketch to run the model on *)

(** The theorems hold for every runtime and every sketch; these serve the
    examples.  The library functions answer the name of the call. *)
Definition example_runtime : Runtime := {|
  repr := fun _ => "<object>";
  json_dumps := fun _ _ => "<json>";
  to_string := fun _ _ _ => "<to_string>";
  to_csv := fun _ _ _ => "<to_csv>";
  tabulate := fun _ _ _ _ => "<tabulate>"
|}.

Definition example_table : DataFrame :=
  [ ("message", [PyStr "login"; PyStr "logout"]);
    ("label", [PyList []; PyList [PyStr "__ts_star"]]) ].

Definition example_view : View := {|
  view_query_string := "data_type:syslog";
  view_query_filter :=
    PyDict [ ("from", PyInt 0); ("size", PyInt 10); ("chips", PyList []) ]
|}.

Definition example_sketch : Sketch := {|
  sketch_explore := fun _ _ _ _ => inr example_table;
  sketch_get_view := fun view_name =>
    if String.eqb view_name "my_view" then inr example_view
    else inl (Raised "no such view")
|}.

Definition example_context : Context := {|
  obj_sketch := example_sketch;
  obj_output_format := "tabular"
|}.

(** ** Vocabulary of the further properties *)

Definition is_get_view (e : event) : bool :=
  match e with
  | GetView _ => true
  | _ => false
  end.

Definition is_echo (e : event) : bool :=
  match e with
  | Echo _ _ => true
  | _ => false
  end.

(** The output format the command settles on: [--output] when it is given
    and not empty, the format of the context otherwise. *)
Definition effective_format (ctx : Context) (output : option string) : string :=
  if truthy_str output then the_str output else obj_output_format ctx.

(** The shape every chip has: the four keys in the order of
    [_create_empty_chip], an empty field, the operator ['must']. *)
Definition chip_shape (chip_type : string) (chip : pyval) : Prop :=
  exists value : pyval,
    chip = PyDict [ ("field", PyStr "");
                    ("value", value);
                    ("type", PyStr chip_type);
                    ("operator", PyStr "must") ]
    /\ (chip_type = "datetime_range" -> exists text, value = PyStr text).

(** A string, a tuple or a list: what can be indexed by position. *)
Definition str_or_sequence (v : pyval) : bool :=
  match v with
  | PyStr _ | PyTuple _ | PyList _ => true
  | _ => false
  end.

(** A tuple or a list with fewer than two items. *)
Definition short_sequence (v : pyval) : bool :=
  match v with
  | PyTuple items | PyList items => Nat.ltb (length items) 2
  | _ => false
  end.

(** The columns of a table other than [label]. *)
Definition other_columns (dataframe : DataFrame) : DataFrame :=
  filter (fun col => negb (String.eqb (fst col) "label")) dataframe.

(** The calls a trace makes to the sketch: all of it but the printing. *)
Definition requests (t : list event) : list event :=
  filter (fun e => negb (is_echo e)) t.

(** A sketch whose server cannot be reached, and one that answers a table
    without any column. *)
Definition unreachable_sketch : Sketch := {|
  sketch_explore := fun _ _ _ _ => inl (Raised "connection refused");
  sketch_get_view := fun _ => inl (Raised "connection refused")
|}.


(** * Properties *)

(** ** The computation monad *)

Lemma io_bind_lift_ok {A B : Type} (a : A) (k : A -> IO B) :
  io_bind (io_lift (inr a)) k = k a.
Proof.
  unfold io_bind, io_lift. destruct (k a) as [t r]. reflexivity.
Qed.

Lemma trace_call_bind {A B : Type} (e : event) (answer : result A)
      (k : A -> IO B) :
  trace (io_bind (io_call e answer) k) =
  e :: match answer with
       | inl _ => []
       | inr a => trace (k a)
       end.
Proof.
  unfold io_bind, io_call, trace. destruct answer as [err | a]; simpl.
  - reflexivity.
  - destruct (k a) as [t r]. reflexivity.
Qed.

Lemma outcome_call_bind {A B : Type} (e : event) (answer : result A)
      (k : A -> IO B) :
  outcome (io_bind (io_call e answer) k) =
  match answer with
  | inl err => inl err
  | inr a => outcome (k a)
  end.
Proof.
  unfold io_bind, io_call, outcome. destruct answer as [err | a]; simpl.
  - reflexivity.
  - destruct (k a) as [t r]. reflexivity.
Qed.

Section Properties.
Context `{Runtime}.

(** ** The filter-chip builder *)

Lemma label_chip_str (label : string) :
  label_chip (PyStr label) = chip_of (reserved_label label) "label".
Proof.
  unfold label_chip, reserved_label, chip_of, py_in_strs. simpl.
  destruct (String.eqb_spec label "star") as [-> | _]; [reflexivity |].
  destruct (String.eqb_spec label "comment") as [-> | _]; reflexivity.
Qed.

Lemma for_labels_map (values chips : list pyval) :
  for_labels values chips = chips ++ map label_chip values.
Proof.
  revert chips. induction values as [| label rest IH]; intros chips; simpl.
  - now rewrite app_nil_r.
  - rewrite IH, <- app_assoc. reflexivity.
Qed.

Lemma datetime_range_chip_input (i : time_input) :
  datetime_range_chip (time_input_value i) =
  inr (chip_of (time_input_text i) "datetime_range").
Proof. destruct i; reflexivity. Qed.

Lemma for_time_ranges_inputs (inputs : list time_input) (chips : list pyval) :
  for_time_ranges (map time_input_value inputs) chips =
  inr (chips ++
       map (fun i => chip_of (time_input_text i) "datetime_range") inputs).
Proof.
  revert chips. induction inputs as [| i rest IH]; intros chips; simpl.
  - now rewrite app_nil_r.
  - rewrite datetime_range_chip_input. simpl.
    rewrite IH, <- app_assoc. reflexivity.
Qed.

(** C2: for every list of label values, [get_filter_chips] with chip type
    ['label'] returns exactly one chip per value, in order; each chip has
    field [''], operator ['must'], type ['label'] and the value of the
    input, where ['star'] and ['comment'] become ['__ts_star'] and
    ['__ts_comment']. *)
Theorem get_filter_chips_label (labels : list string) :
  get_filter_chips (label_values labels) "label" =
  inr (map (fun label =>
              PyDict [ ("field", PyStr "");
                       ("value", PyStr (if String.eqb label "star"
                                        then "__ts_star"
                                        else if String.eqb label "comment"
                                             then "__ts_comment"
                                             else label));
                       ("type", PyStr "label");
                       ("operator", PyStr "must") ])
           labels).
Proof.
  unfold get_filter_chips, label_values. simpl.
  rewrite for_labels_map. simpl. rewrite map_map. f_equal.
  apply map_ext. intros label. apply label_chip_str.
Qed.

(** C3: for every list of time inputs, [get_filter_chips] with chip type
    ['datetime_range'] returns one chip per input, in order, with field
    [''], operator ['must'] and type ['datetime_range']; the value of a
    single timestamp [t] is ["t,t"], that of a pair is ["start,end"]. *)
Theorem get_filter_chips_datetime_range (inputs : list time_input) :
  get_filter_chips (map time_input_value inputs) "datetime_range" =
  inr (map (fun i =>
              PyDict [ ("field", PyStr "");
                       ("value", PyStr match i with
                                       | Timestamp t => t ++ "," ++ t
                                       | TimeRange start_ end_ =>
                                           start_ ++ "," ++ end_
                                       end);
                       ("type", PyStr "datetime_range");
                       ("operator", PyStr "must") ])
           inputs).
Proof.
  unfold get_filter_chips. simpl.
  rewrite for_time_ranges_inputs. reflexivity.
Qed.

(** C8: with a chip type other than ['label'] and ['datetime_range'],
    [get_filter_chips] returns the empty list whatever the values are,
    and raises nothing. *)
Theorem get_filter_chips_unknown_type (values : list pyval)
        (chip_type : string) :
  chip_type <> "label" ->
  chip_type <> "datetime_range" ->
  get_filter_chips values chip_type = inr [].
Proof.
  intros Hlabel Hrange. unfold get_filter_chips.
  destruct (String.eqb_spec chip_type "label") as [E | _]; [contradiction |].
  destruct (String.eqb_spec chip_type "datetime_range") as [E | _];
    [contradiction | reflexivity].
Qed.

(** ** The output formatter *)

(** C6: for every table and header setting, [format_output] returns a
    rendered string for the formats ['text'], ['csv'] and ['tabular'], and
    [None] for any other format; it raises nothing. *)
Theorem format_output_cases (dataframe : DataFrame) (output_format : string)
        (show_headers : bool) :
  (output_format = "text" ->
   format_output dataframe output_format show_headers =
   Some (to_string dataframe false show_headers)) /\
  (output_format = "csv" ->
   format_output dataframe output_format show_headers =
   Some (to_csv dataframe false show_headers)) /\
  (output_format = "tabular" ->
   format_output dataframe output_format show_headers =
   Some (tabulate dataframe (if show_headers then Some "keys" else None)
           "psql" false)) /\
  (output_format <> "text" -> output_format <> "csv" ->
   output_format <> "tabular" ->
   format_output dataframe output_format show_headers = None).
Proof.
  unfold format_output. repeat split.
  - intros ->. reflexivity.
  - intros ->. reflexivity.
  - intros ->. simpl. destruct show_headers; reflexivity.
  - intros Htext Hcsv Htab.
    destruct (String.eqb_spec output_format "text"); [contradiction |].
    destruct (String.eqb_spec output_format "csv"); [contradiction |].
    destruct (String.eqb_spec output_format "tabular"); [contradiction |].
    reflexivity.
Qed.

(** ** The search wrapper *)

Lemma has_column_filter (name : string) (dataframe : DataFrame) :
  has_column name
    (filter (fun col => negb (existsb (String.eqb (fst col)) [name])) dataframe)
  = false.
Proof.
  unfold has_column, column_names.
  induction dataframe as [| [c cells] rest IH]; simpl; [reflexivity |].
  rewrite orb_false_r.
  destruct (String.eqb_spec c name) as [-> | Hne]; simpl; [exact IH |].
  destruct (String.eqb_spec name c) as [-> | _]; [contradiction | exact IH].
Qed.

Lemma drop_label (dataframe : DataFrame) :
  has_column "label" dataframe = true ->
  drop ["label"] dataframe =
  inr (filter (fun col => negb (existsb (String.eqb (fst col)) ["label"]))
         dataframe).
Proof.
  intros Hcol. unfold drop. simpl. rewrite Hcol. reflexivity.
Qed.

Lemma trace_search (sketch : Sketch) (query_string : string)
      (query_filter return_fields : pyval) :
  trace (search sketch query_string query_filter return_fields) =
  [Explore query_string query_filter return_fields true].
Proof.
  unfold search. rewrite trace_call_bind.
  destruct (sketch_explore _ _ _ _ _) as [err | dataframe]; [reflexivity |].
  destruct (py_contains "label" return_fields) as [err | requested];
    [reflexivity |].
  destruct requested; simpl; [reflexivity |].
  destruct (drop ["label"] dataframe); reflexivity.
Qed.

(** When ['label' in return_fields] is false, the column goes. *)
Lemma search_drops_label (sketch : Sketch) (query_string : string)
      (query_filter return_fields : pyval) (dataframe : DataFrame) :
  sketch_explore sketch query_string query_filter return_fields true
  = inr dataframe ->
  has_column "label" dataframe = true ->
  py_contains "label" return_fields = inr false ->
  exists table,
    outcome (search sketch query_string query_filter return_fields) = inr table
    /\ has_column "label" table = false.
Proof.
  intros Hexplore Hcol Hreq.
  exists (filter (fun col => negb (existsb (String.eqb (fst col)) ["label"]))
            dataframe).
  split; [| apply has_column_filter].
  unfold search. rewrite outcome_call_bind, Hexplore, Hreq. simpl.
  rewrite (drop_label _ Hcol). reflexivity.
Qed.

(** When ['label' in return_fields] is true, the table comes back as the
    sketch answered it. *)
Lemma search_keeps_label (sketch : Sketch) (query_string : string)
      (query_filter return_fields : pyval) (dataframe : DataFrame) :
  sketch_explore sketch query_string query_filter return_fields true
  = inr dataframe ->
  py_contains "label" return_fields = inr true ->
  outcome (search sketch query_string query_filter return_fields)
  = inr dataframe.
Proof.
  intros Hexplore Hreq.
  unfold search. rewrite outcome_call_bind, Hexplore, Hreq. reflexivity.
Qed.

(** A list of fields without ['label'] fails the membership test. *)
Lemma py_contains_field_list (fields : list string) :
  py_contains "label" (PyList (map PyStr fields)) =
  inr (existsb (fun f => String.eqb f "label") fields).
Proof.
  simpl. f_equal. induction fields as [| f rest IH]; simpl; [reflexivity |].
  now rewrite IH.
Qed.

(** ** The command body *)

Lemma trace_describe_query (query_string : string) (query_filter : pyval) :
  describe_query query_string query_filter =
  ([ Echo (Some ("Query string: " ++ query_string)%string) true;
     Echo (Some ("Filter: " ++ json_dumps query_filter (Some 2%nat))%string)
          true ],
   inr tt).
Proof. reflexivity. Qed.

Lemma trace_describe_or_search (ctx : Context) (header : bool)
      (output : option string) (return_fields : string) (describe : bool)
      (query : string) (query_filter : pyval) :
  exists rest,
    trace (describe_or_search ctx header output return_fields describe query
             query_filter) =
    (if describe then
       [ Echo (Some ("Query string: " ++ query)%string) true;
         Echo (Some ("Filter: " ++ json_dumps query_filter (Some 2%nat))%string)
              true ]
     else
       Explore query query_filter (PyStr return_fields) true :: rest)
    /\ existsb is_explore rest = false.
Proof.
  unfold describe_or_search. destruct describe.
  - exists []. split; reflexivity.
  - pose proof (trace_search (obj_sketch ctx) query query_filter
                  (PyStr return_fields)) as Htrace.
    unfold io_bind, trace in *.
    destruct (search _ _ _ _) as [t [err | table]]; simpl in *; subst t.
    + exists []. split; reflexivity.
    + eexists. split; reflexivity.
Qed.

Lemma extend_filter_with_chips (limit : Z) (order : string)
      (old chips : list pyval) :
  extend_chips (filter_with_chips limit order old) chips =
  inr (filter_with_chips limit order (old ++ chips)).
Proof. reflexivity. Qed.

Lemma chips_of_time_ranges (time_ranges : list (string * string)) :
  get_filter_chips (time_range_values time_ranges) "datetime_range" =
  inr (map (fun r => chip_of (fst r ++ "," ++ snd r) "datetime_range")
         time_ranges).
Proof.
  unfold time_range_values.
  rewrite <- (map_map (fun r => TimeRange (fst r) (snd r)) time_input_value).
  unfold get_filter_chips. simpl.
  rewrite for_time_ranges_inputs, map_map. reflexivity.
Qed.

Lemma chips_of_times (times : list string) :
  get_filter_chips (time_values times) "datetime_range" =
  inr (map (fun t => chip_of (t ++ "," ++ t) "datetime_range") times).
Proof.
  unfold time_values.
  rewrite <- (map_map Timestamp time_input_value).
  unfold get_filter_chips. simpl.
  rewrite for_time_ranges_inputs, map_map. reflexivity.
Qed.

Lemma chips_of_labels (labels : list string) :
  get_filter_chips (label_values labels) "label" =
  inr (map (fun label => chip_of (reserved_label label) "label") labels).
Proof.
  unfold get_filter_chips, label_values. simpl.
  rewrite for_labels_map, map_map. simpl. f_equal.
  apply map_ext. intros label. apply label_chip_str.
Qed.

(** One [if values: chips = ...; query_filter['chips'].extend(chips)]. *)
Lemma extend_if_given {A : Type} (given : list A) (values : list pyval)
      (chip_type : string) (chips : list pyval) (limit : Z) (order : string)
      (old : list pyval) :
  get_filter_chips values chip_type = inr chips ->
  (given = [] -> chips = []) ->
  (if truthy_tuple given then
     let? chips := get_filter_chips values chip_type in
     extend_chips (filter_with_chips limit order old) chips
   else inr (filter_with_chips limit order old)) =
  inr (filter_with_chips limit order (old ++ chips)).
Proof.
  intros Hchips Hnone. destruct given as [| a rest]; simpl.
  - rewrite (Hnone eq_refl), app_nil_r. reflexivity.
  - rewrite Hchips. reflexivity.
Qed.

(** Without a view the command resolves the query of the command line and
    the fresh filter with the chips of the command line. *)
Lemma explore_group_without_view (ctx : Context) (query : string)
      (times : list string) (time_ranges : list (string * string))
      (labels : list string) (header : bool) (output : option string)
      (return_fields order : string) (limit : Z) (view : option string)
      (describe : bool) :
  truthy_str view = false ->
  explore_group ctx query times time_ranges labels header output return_fields
    order limit view describe =
  describe_or_search ctx header output return_fields describe query
    (filter_with_chips limit order (cli_chips time_ranges times labels)).
Proof.
  intros Hview. unfold explore_group. rewrite Hview.
  change (PyDict [ ("from", PyInt 0); ("terminate_after", PyInt limit);
                   ("size", PyInt limit); ("indices", PyList [PyStr "_all"]);
                   ("order", PyStr order); ("chips", PyList []) ])
    with (filter_with_chips limit order []).
  rewrite (extend_if_given time_ranges _ _ _ limit order []
             (chips_of_time_ranges time_ranges))
    by (intros ->; reflexivity).
  rewrite io_bind_lift_ok.
  rewrite (extend_if_given times _ _ _ limit order _ (chips_of_times times))
    by (intros ->; reflexivity).
  rewrite io_bind_lift_ok.
  rewrite (extend_if_given labels _ _ _ limit order _ (chips_of_labels labels))
    by (intros ->; reflexivity).
  rewrite io_bind_lift_ok.
  simpl app. rewrite <- app_assoc. reflexivity.
Qed.

(** With a view the command fetches it and resolves its query and filter. *)
Lemma explore_group_with_view (ctx : Context) (query : string)
      (times : list string) (time_ranges : list (string * string))
      (labels : list string) (header : bool) (output : option string)
      (return_fields order : string) (limit : Z) (view : option string)
      (describe : bool) :
  truthy_str view = true ->
  explore_group ctx query times time_ranges labels header output return_fields
    order limit view describe =
  (saved <- io_call (GetView (the_str view))
              (sketch_get_view (obj_sketch ctx) (the_str view)) ;;
   describe_or_search ctx header output return_fields describe
     (view_query_string saved) (view_query_filter saved)).
Proof.
  intros Hview. unfold explore_group. rewrite Hview. reflexivity.
Qed.

Lemma truthy_str_name (name : string) :
  name <> "" -> truthy_str (Some name) = true.
Proof.
  intros Hname. simpl. destruct (String.eqb_spec name ""); [contradiction |].
  reflexivity.
Qed.

(** C4: with the describe flag the command prints the resolved query
    string and the filter serialized by [json.dumps] with [indent=2], and
    returns; no [explore] call is ever made, with a view or without. *)
Theorem describe_prints_and_skips_search (ctx : Context) (query : string)
        (times : list string) (time_ranges : list (string * string))
        (labels : list string) (header : bool) (output : option string)
        (return_fields order : string) (limit : Z) (view : option string) :
  existsb is_explore
    (trace (explore_group ctx query times time_ranges labels header output
              return_fields order limit view true)) = false /\
  (truthy_str view = false ->
   explore_group ctx query times time_ranges labels header output
     return_fields order limit view true =
   ([ Echo (Some ("Query string: " ++ query)%string) true;
      Echo (Some ("Filter: " ++
                  json_dumps
                    (filter_with_chips limit order
                       (cli_chips time_ranges times labels))
                    (Some 2%nat))%string) true ],
    inr tt)) /\
  (forall saved : View,
      truthy_str view = true ->
      sketch_get_view (obj_sketch ctx) (the_str view) = inr saved ->
      explore_group ctx query times time_ranges labels header output
        return_fields order limit view true =
      ([ GetView (the_str view);
         Echo (Some ("Query string: " ++ view_query_string saved)%string) true;
         Echo (Some ("Filter: " ++
                     json_dumps (view_query_filter saved) (Some 2%nat))%string)
              true ],
       inr tt)).
Proof.
  destruct (truthy_str view) eqn:Hview.
  - rewrite (explore_group_with_view _ _ _ _ _ _ _ _ _ _ _ _ Hview).
    split; [| split].
    + rewrite trace_call_bind.
      destruct (sketch_get_view _ _) as [err | saved]; reflexivity.
    + discriminate.
    + intros saved _ Hsaved. rewrite Hsaved. reflexivity.
  - rewrite (explore_group_without_view _ _ _ _ _ _ _ _ _ _ _ _ Hview).
    split; [| split].
    + reflexivity.
    + reflexivity.
    + discriminate.
Qed.

(** C5: with a saved view, the search is made with the query string and
    the query filter stored in the view; the query, the times, the time
    ranges, the labels, the order and the limit of the command line change
    nothing of what the command does. *)
Theorem view_replaces_cli_query (ctx : Context) (header : bool)
        (output : option string) (return_fields : string) (describe : bool)
        (name : string)
        (query : string) (times : list string)
        (time_ranges : list (string * string)) (labels : list string)
        (order : string) (limit : Z) :
  name <> "" ->
  (forall (query' : string) (times' : list string)
          (time_ranges' : list (string * string)) (labels' : list string)
          (order' : string) (limit' : Z),
      explore_group ctx query times time_ranges labels header output
        return_fields order limit (Some name) describe =
      explore_group ctx query' times' time_ranges' labels' header output
        return_fields order' limit' (Some name) describe) /\
  (forall saved : View,
      sketch_get_view (obj_sketch ctx) name = inr saved ->
      exists rest,
        trace (explore_group ctx query times time_ranges labels header output
                 return_fields order limit (Some name) describe) =
        GetView name ::
        (if describe then rest
         else Explore (view_query_string saved) (view_query_filter saved)
                (PyStr return_fields) true :: rest)
        /\ existsb is_explore rest = false).
Proof.
  intros Hname. pose proof (truthy_str_name name Hname) as Hview. split.
  - intros query' times' time_ranges' labels' order' limit'.
    rewrite !(explore_group_with_view _ _ _ _ _ _ _ _ _ _ _ _ Hview).
    reflexivity.
  - intros saved Hsaved.
    rewrite (explore_group_with_view _ _ _ _ _ _ _ _ _ _ _ _ Hview).
    rewrite trace_call_bind. simpl the_str. rewrite Hsaved.
    destruct (trace_describe_or_search ctx header output return_fields describe
                (view_query_string saved) (view_query_filter saved))
      as [rest [Htrace Hrest]].
    rewrite Htrace. destruct describe.
    + eexists. split; reflexivity.
    + exists rest. split; [reflexivity | exact Hrest].
Qed.

(** C7: without a view, the query filter of the invocation has [from] 0,
    [terminate_after] and [size] the limit (40 when left out), [indices]
    [['_all']], [order] the order (['asc'] when left out) and a [chips] list
    that is empty when no filter flag is given. *)
Theorem fresh_query_filter (ctx : Context) (query : string)
        (times : list string) (time_ranges : list (string * string))
        (labels : list string) (header : bool) (output : option string)
        (return_fields order : string) (limit : Z) (view : option string)
        (describe : bool) :
  opt_limit default_options = 40%Z /\
  opt_order default_options = "asc" /\
  (truthy_str view = false ->
   exists (chips : list pyval) (rest : list event),
     let query_filter :=
       PyDict [ ("from", PyInt 0);
                ("terminate_after", PyInt limit);
                ("size", PyInt limit);
                ("indices", PyList [PyStr "_all"]);
                ("order", PyStr order);
                ("chips", PyList chips) ] in
     trace (explore_group ctx query times time_ranges labels header output
              return_fields order limit view describe) =
     (if describe then
        [ Echo (Some ("Query string: " ++ query)%string) true;
          Echo (Some ("Filter: " ++
                      json_dumps query_filter (Some 2%nat))%string) true ]
      else
        Explore query query_filter (PyStr return_fields) true :: rest)
     /\ (time_ranges = [] -> times = [] -> labels = [] -> chips = [])).
Proof.
  split; [reflexivity |]. split; [reflexivity |]. intros Hview.
  rewrite (explore_group_without_view _ _ _ _ _ _ _ _ _ _ _ _ Hview).
  destruct (trace_describe_or_search ctx header output return_fields describe
              query
              (filter_with_chips limit order
                 (cli_chips time_ranges times labels)))
    as [rest [Htrace _]].
  exists (cli_chips time_ranges times labels), rest. split.
  - exact Htrace.
  - intros -> -> ->. reflexivity.
Qed.

(** C9: without a view, the chips of the query filter are the chips built
    from the time ranges, then those built from the times, then those
    built from the labels, each group in the order of the command line. *)
Theorem cli_chips_order (ctx : Context) (query : string)
        (times : list string) (time_ranges : list (string * string))
        (labels : list string) (header : bool) (output : option string)
        (return_fields order : string) (limit : Z) (view : option string)
        (describe : bool) :
  truthy_str view = false ->
  exists (range_chips time_chips label_chips : list pyval)
         (rest : list event),
    get_filter_chips (time_range_values time_ranges) "datetime_range"
    = inr range_chips /\
    get_filter_chips (time_values times) "datetime_range" = inr time_chips /\
    get_filter_chips (label_values labels) "label" = inr label_chips /\
    range_chips =
    map (fun r => chip_of (fst r ++ "," ++ snd r) "datetime_range")
      time_ranges /\
    time_chips =
    map (fun t => chip_of (t ++ "," ++ t) "datetime_range") times /\
    label_chips =
    map (fun label => chip_of (reserved_label label) "label") labels /\
    let query_filter :=
      PyDict [ ("from", PyInt 0);
               ("terminate_after", PyInt limit);
               ("size", PyInt limit);
               ("indices", PyList [PyStr "_all"]);
               ("order", PyStr order);
               ("chips", PyList (range_chips ++ time_chips ++ label_chips)) ]
    in
    trace (explore_group ctx query times time_ranges labels header output
             return_fields order limit view describe) =
    (if describe then
       [ Echo (Some ("Query string: " ++ query)%string) true;
         Echo (Some ("Filter: " ++
                     json_dumps query_filter (Some 2%nat))%string) true ]
     else
       Explore query query_filter (PyStr return_fields) true :: rest).
Proof.
  intros Hview.
  rewrite (explore_group_without_view _ _ _ _ _ _ _ _ _ _ _ _ Hview).
  destruct (trace_describe_or_search ctx header output return_fields describe
              query
              (filter_with_chips limit order
                 (cli_chips time_ranges times labels)))
    as [rest [Htrace _]].
  do 3 eexists. exists rest.
  split; [apply chips_of_time_ranges |].
  split; [apply chips_of_times |].
  split; [apply chips_of_labels |].
  repeat (split; [reflexivity |]).
  exact Htrace.
Qed.

(** C10: with a view and the describe flag, the [get_view] call is made
    first; the command then prints the query and the filter of the view
    and returns, and no [explore] call follows. *)
Theorem describe_fetches_view (ctx : Context) (query : string)
        (times : list string) (time_ranges : list (string * string))
        (labels : list string) (header : bool) (output : option string)
        (return_fields order : string) (limit : Z) (name : string) :
  name <> "" ->
  (exists rest,
      trace (explore_group ctx query times time_ranges labels header output
               return_fields order limit (Some name) true) =
      GetView name :: rest
      /\ existsb is_explore rest = false) /\
  (forall saved : View,
      sketch_get_view (obj_sketch ctx) name = inr saved ->
      trace (explore_group ctx query times time_ranges labels header output
               return_fields order limit (Some name) true) =
      [ GetView name;
        Echo (Some ("Query string: " ++ view_query_string saved)%string) true;
        Echo (Some ("Filter: " ++
                    json_dumps (view_query_filter saved) (Some 2%nat))%string)
             true ]).
Proof.
  intros Hname. pose proof (truthy_str_name name Hname) as Hview.
  rewrite (explore_group_with_view _ _ _ _ _ _ _ _ _ _ _ _ Hview).
  rewrite trace_call_bind. simpl the_str. split.
  - destruct (sketch_get_view (obj_sketch ctx) name) as [err | saved];
      eexists; split; reflexivity.
  - intros saved Hsaved. rewrite Hsaved. reflexivity.
Qed.

(** [explore --label star --describe], every other option left out. *)
Example describe_label_star (ctx : Context) :
  invoke ctx {| opt_query := "*"; opt_times := []; opt_time_ranges := [];
                opt_labels := ["star"]; opt_header := true;
                opt_output := None; opt_return_fields := "";
                opt_order := "asc"; opt_limit := 40; opt_view := None;
                opt_describe := true |} =
  ([ Echo (Some "Query string: *") true;
     Echo (Some ("Filter: " ++
                 json_dumps
                   (PyDict [ ("from", PyInt 0);
                             ("terminate_after", PyInt 40);
                             ("size", PyInt 40);
                             ("indices", PyList [PyStr "_all"]);
                             ("order", PyStr "asc");
                             ("chips",
                              PyList [ PyDict [ ("field", PyStr "");
                                                ("value", PyStr "__ts_star");
                                                ("type", PyStr "label");
                                                ("operator", PyStr "must") ] ])
                           ])
                   (Some 2%nat))%string) true ],
   inr tt).
Proof. reflexivity. Qed.

End Properties.

(** ** The search wrapper on the command line's field string *)

(** C1: the table [search] returns is to have no [label] column when the
    field [label] is not requested.  The code tests
    ['label' not in return_fields] on the comma-separated string the command
    passes on, which is a substring test: for the fields [message] and
    [labels] the test finds ['label'] and the column of the raw table stays. *)
Theorem search_keeps_label_for_field_labels :
  ~ In "label" (split_commas "message,labels") /\
  sketch_explore example_sketch "*" (filter_with_chips 40 "asc" [])
    (PyStr "message,labels") true = inr example_table /\
  has_column "label" example_table = true /\
  outcome (search example_sketch "*" (filter_with_chips 40 "asc" [])
             (PyStr "message,labels")) = inr example_table.
Proof.
  split; [| repeat split].
  simpl. intros [Hin | [Hin | []]]; discriminate Hin.
Qed.

(** ** The properties at concrete inputs *)

Lemma get_filter_chips_unknown_type_witness :
  @get_filter_chips example_runtime [PyStr "star"; PyStr "2020-01-01"] "tag"
  = inr [].
Proof.
  apply (@get_filter_chips_unknown_type example_runtime); discriminate.
Defined.

Lemma format_output_cases_witness :
  @format_output example_runtime example_table "csv" false = Some "<to_csv>"
  /\ @format_output example_runtime example_table "xml" true = None.
Proof.
  split.
  - apply (proj1 (proj2 (@format_output_cases example_runtime example_table
                           "csv" false))).
    reflexivity.
  - apply (proj2 (proj2 (proj2 (@format_output_cases example_runtime
                                  example_table "xml" true))));
      discriminate.
Defined.

Lemma describe_prints_and_skips_search_witness :
  @explore_group example_runtime example_context "*" [] [] ["star"] true None
    "" "asc" 40 None true =
  ([ Echo (Some "Query string: *") true; Echo (Some "Filter: <json>") true ],
   inr tt)
  /\ @explore_group example_runtime example_context "*" [] [] ["star"] true
       None "" "asc" 40 (Some "my_view") true =
     ([ GetView "my_view";
        Echo (Some "Query string: data_type:syslog") true;
        Echo (Some "Filter: <json>") true ],
      inr tt).
Proof.
  split.
  - apply (proj1 (proj2 (@describe_prints_and_skips_search example_runtime
                           example_context "*" [] [] ["star"] true None ""
                           "asc" 40%Z None))).
    reflexivity.
  - apply (proj2 (proj2 (@describe_prints_and_skips_search example_runtime
                           example_context "*" [] [] ["star"] true None ""
                           "asc" 40%Z (Some "my_view"))) example_view);
      reflexivity.
Defined.

Lemma view_replaces_cli_query_witness :
  @explore_group example_runtime example_context "*" ["2020-01-01"] []
    ["star"] true None "" "desc" 5 (Some "my_view") false =
  @explore_group example_runtime example_context "*" [] [] [] true None ""
    "asc" 40 (Some "my_view") false.
Proof.
  apply (proj1 (@view_replaces_cli_query example_runtime example_context true
                  None "" false "my_view" "*" ["2020-01-01"] [] ["star"]
                  "desc" 5%Z ltac:(discriminate))).
Defined.

Lemma fresh_query_filter_witness :
  exists (chips : list pyval) (rest : list event),
    trace (@explore_group example_runtime example_context "*" [] [] [] true
             None "" "asc" 40 None false) =
    Explore "*"
      (PyDict [ ("from", PyInt 0);
                ("terminate_after", PyInt 40);
                ("size", PyInt 40);
                ("indices", PyList [PyStr "_all"]);
                ("order", PyStr "asc");
                ("chips", PyList chips) ])
      (PyStr "") true :: rest
    /\ (@nil (string * string) = [] -> @nil string = [] -> @nil string = [] ->
        chips = []).
Proof.
  apply (proj2 (proj2 (@fresh_query_filter example_runtime example_context "*"
                         [] [] [] true None "" "asc" 40%Z None false))).
  reflexivity.
Defined.

Lemma cli_chips_order_witness :
  exists (range_chips time_chips label_chips : list pyval)
         (rest : list event),
    @get_filter_chips example_runtime
      (time_range_values [("2020-01-01", "2020-02-01")]) "datetime_range"
    = inr range_chips /\
    @get_filter_chips example_runtime (time_values ["2020-03-01"])
      "datetime_range" = inr time_chips /\
    @get_filter_chips example_runtime (label_values ["star"]) "label"
    = inr label_chips /\
    range_chips = [chip_of "2020-01-01,2020-02-01" "datetime_range"] /\
    time_chips = [chip_of "2020-03-01,2020-03-01" "datetime_range"] /\
    label_chips = [chip_of "__ts_star" "label"] /\
    trace (@explore_group example_runtime example_context "*" ["2020-03-01"]
             [("2020-01-01", "2020-02-01")] ["star"] true None "" "asc" 40
             None false) =
    Explore "*"
      (PyDict [ ("from", PyInt 0);
                ("terminate_after", PyInt 40);
                ("size", PyInt 40);
                ("indices", PyList [PyStr "_all"]);
                ("order", PyStr "asc");
                ("chips", PyList (range_chips ++ time_chips ++ label_chips)) ])
      (PyStr "") true :: rest.
Proof.
  apply (@cli_chips_order example_runtime example_context "*" ["2020-03-01"]
           [("2020-01-01", "2020-02-01")] ["star"] true None "" "asc" 40%Z
           None false).
  reflexivity.
Defined.

Lemma describe_fetches_view_witness :
  trace (@explore_group example_runtime example_context "*" [] [] [] true None
           "" "asc" 40 (Some "my_view") true) =
  [ GetView "my_view";
    Echo (Some "Query string: data_type:syslog") true;
    Echo (Some "Filter: <json>") true ].
Proof.
  apply (proj2 (@describe_fetches_view example_runtime example_context "*" []
                  [] [] true None "" "asc" 40%Z "my_view"
                  ltac:(discriminate)) example_view).
  reflexivity.
Defined.

(** * Further properties *)

Section ChipBuilder.
Context `{Runtime}.

(** ** What the filter-chip builder keeps and when it raises *)

Lemma label_chip_shape (label : pyval) :
  chip_shape "label" (label_chip label).
Proof.
  unfold chip_shape, label_chip.
  destruct (py_in_strs label ["star"; "comment"]); eexists; split;
    try reflexivity; discriminate.
Qed.

Lemma datetime_range_chip_shape (time_range chip : pyval) :
  datetime_range_chip time_range = inr chip ->
  chip_shape "datetime_range" chip.
Proof.
  unfold datetime_range_chip, chip_shape.
  destruct (py_index _ 0) as [e0 | t0]; simpl; [discriminate |].
  destruct (py_index _ 1) as [e1 | t1]; simpl; [discriminate |].
  intros Hchip. injection Hchip as <-.
  eexists. split; [reflexivity |]. intros _. eexists. reflexivity.
Qed.

(** The loop over time ranges only appends to the chips it starts with. *)
Lemma for_time_ranges_acc (values chips : list pyval) :
  for_time_ranges values chips =
  let? new := for_time_ranges values [] in inr (chips ++ new).
Proof.
  revert chips. induction values as [| v rest IH]; intros chips; simpl.
  - now rewrite app_nil_r.
  - destruct (datetime_range_chip v) as [e | chip]; simpl; [reflexivity |].
    rewrite (IH (chips ++ [chip])), (IH [chip]).
    destruct (for_time_ranges rest []) as [e | new]; simpl; [reflexivity |].
    now rewrite <- app_assoc.
Qed.

Lemma for_time_ranges_cons (v : pyval) (rest : list pyval) :
  for_time_ranges (v :: rest) [] =
  let? chip := datetime_range_chip v in
  let? new := for_time_ranges rest [] in
  inr (chip :: new).
Proof.
  simpl. destruct (datetime_range_chip v) as [e | chip]; simpl; [reflexivity |].
  apply for_time_ranges_acc.
Qed.

Lemma for_time_ranges_ok (values chips : list pyval) :
  for_time_ranges values [] = inr chips ->
  length chips = length values /\ Forall (chip_shape "datetime_range") chips.
Proof.
  revert chips. induction values as [| v rest IH]; intros chips.
  - simpl. intros Hchips. injection Hchips as <-. split; [reflexivity | constructor].
  - rewrite for_time_ranges_cons.
    destruct (datetime_range_chip v) as [e | chip] eqn:Hchip; simpl;
      [discriminate |].
    destruct (for_time_ranges rest []) as [e | new]; simpl; [discriminate |].
    intros Hchips. injection Hchips as <-.
    destruct (IH new eq_refl) as [Hlen Hshape]. split.
    + simpl. now rewrite Hlen.
    + constructor; [exact (datetime_range_chip_shape _ _ Hchip) | exact Hshape].
Qed.

(** X1: every chip [get_filter_chips] returns has the four keys [field],
    [value], [type] and [operator] in this order, the field [''], the
    operator ['must'] and the requested chip type; the value of a
    ['datetime_range'] chip is a string.  This holds for values of any
    kind. *)
Theorem get_filter_chips_shape (values : list pyval) (chip_type : string)
        (chips : list pyval) :
  get_filter_chips values chip_type = inr chips ->
  Forall (chip_shape chip_type) chips.
Proof.
  unfold get_filter_chips.
  destruct (String.eqb_spec chip_type "label") as [-> | _].
  - intros Hchips. injection Hchips as <-.
    rewrite for_labels_map. simpl.
    apply Forall_forall. intros chip Hin.
    apply in_map_iff in Hin. destruct Hin as [label [<- _]].
    apply label_chip_shape.
  - destruct (String.eqb_spec chip_type "datetime_range") as [-> | _].
    + intros Hchips. exact (proj2 (for_time_ranges_ok _ _ Hchips)).
    + intros Hchips. injection Hchips as <-. constructor.
Qed.

(** X2: when [get_filter_chips] returns for one of the two chip types, it
    returns as many chips as it was given values: none is merged, skipped
    or split. *)
Theorem get_filter_chips_length (values : list pyval) (chip_type : string)
        (chips : list pyval) :
  chip_type = "label" \/ chip_type = "datetime_range" ->
  get_filter_chips values chip_type = inr chips ->
  length chips = length values.
Proof.
  unfold get_filter_chips. intros [-> | ->]; simpl.
  - intros Hchips. injection Hchips as <-.
    rewrite for_labels_map. simpl. apply length_map.
  - intros Hchips. exact (proj1 (for_time_ranges_ok _ _ Hchips)).
Qed.

(** X3: building the chips of two lists of values one after the other and
    joining them is building the chips of the joined list; the first
    exception met, in the order of the values, is the one raised. *)
Theorem get_filter_chips_app (xs ys : list pyval) (chip_type : string) :
  get_filter_chips (xs ++ ys) chip_type =
  let? first := get_filter_chips xs chip_type in
  let? second := get_filter_chips ys chip_type in
  inr (first ++ second).
Proof.
  unfold get_filter_chips.
  destruct (String.eqb chip_type "label").
  - simpl. rewrite !for_labels_map. simpl. now rewrite map_app.
  - destruct (String.eqb chip_type "datetime_range"); [| reflexivity].
    induction xs as [| x rest IH].
    + simpl. destruct (for_time_ranges ys []); reflexivity.
    + rewrite <- app_comm_cons, !for_time_ranges_cons.
      destruct (datetime_range_chip x) as [e | chip]; simpl; [reflexivity |].
      rewrite IH.
      destruct (for_time_ranges rest []) as [e | first]; simpl;
        [reflexivity |].
      destruct (for_time_ranges ys []) as [e | second]; reflexivity.
Qed.

Lemma datetime_range_chip_sequence (v : pyval) :
  str_or_sequence v = true ->
  if short_sequence v
  then datetime_range_chip v = inl IndexError
  else exists chip, datetime_range_chip v = inr chip.
Proof.
  destruct v as [| b | n | s | items | items | items]; simpl;
    try discriminate; intros _.
  - eexists. reflexivity.
  - destruct items as [| a [| b rest]]; simpl; try reflexivity.
    eexists. reflexivity.
  - destruct items as [| a [| b rest]]; simpl; try reflexivity.
    eexists. reflexivity.
Qed.

(** X4: for the chip type ['datetime_range'] and values that are strings,
    tuples or lists: a tuple or list with fewer than two items makes the
    call raise [IndexError], and no chip is returned; without one the call
    returns. *)
Theorem get_filter_chips_short_range (values : list pyval) :
  forallb str_or_sequence values = true ->
  (existsb short_sequence values = true ->
   get_filter_chips values "datetime_range" = inl IndexError) /\
  (existsb short_sequence values = false ->
   exists chips, get_filter_chips values "datetime_range" = inr chips).
Proof.
  unfold get_filter_chips. simpl.
  induction values as [| v rest IH]; simpl.
  - intros _. split; [discriminate | intros _; eexists; reflexivity].
  - intros Hall. apply andb_true_iff in Hall. destruct Hall as [Hv Hrest].
    specialize (IH Hrest). destruct IH as [IHbad IHgood].
    pose proof (datetime_range_chip_sequence v Hv) as Hchip.
    pose proof (for_time_ranges_cons v rest) as Hcons. simpl in Hcons.
    rewrite Hcons. clear Hcons.
    destruct (short_sequence v); simpl.
    + rewrite Hchip. split; [reflexivity | discriminate].
    + destruct Hchip as [chip ->]. simpl. split.
      * intros Hbad. rewrite (IHbad Hbad). reflexivity.
      * intros Hgood. destruct (IHgood Hgood) as [chips ->]. simpl.
        eexists. reflexivity.
Qed.

(** X5: a time range with more than two items is cut to its first two, and a
    list is taken like a tuple. *)
Theorem get_filter_chips_long_range (start_ end_ : string)
        (more : list pyval) :
  get_filter_chips [PyTuple (PyStr start_ :: PyStr end_ :: more)]
    "datetime_range" =
  inr [chip_of (start_ ++ "," ++ end_) "datetime_range"] /\
  get_filter_chips [PyList (PyStr start_ :: PyStr end_ :: more)]
    "datetime_range" =
  inr [chip_of (start_ ++ "," ++ end_) "datetime_range"].
Proof. split; reflexivity. Qed.

End ChipBuilder.

Section SearchWrapper.

(** ** What [search] asks, keeps and raises *)

Lemma prefix_app (needle hay : string) :
  String.prefix needle hay = true <-> exists post, hay = (needle ++ post)%string.
Proof.
  revert hay. induction needle as [| c needle IH]; intros hay.
  - split; [intros _; exists hay; reflexivity |].
    intros _. destruct hay; reflexivity.
  - destruct hay as [| d hay]; simpl.
    + split; [discriminate | intros [post Hpost]; discriminate].
    + destruct (Ascii.ascii_dec c d) as [-> | Hne].
      * rewrite IH. split; intros [post Hpost]; exists post.
        -- now rewrite Hpost.
        -- now injection Hpost.
      * split; [discriminate |].
        intros [post Hpost]. injection Hpost as Hd _. congruence.
Qed.

Lemma str_contains_eq (needle hay : string) :
  str_contains needle hay =
  if String.prefix needle hay then true
  else match hay with
       | EmptyString => false
       | String _ rest => str_contains needle rest
       end.
Proof. destruct hay; reflexivity. Qed.

(** The substring test finds [needle] exactly in the strings that hold it
    between a prefix and a suffix. *)
Lemma str_contains_app (needle hay : string) :
  str_contains needle hay = true <->
  exists pre post, hay = (pre ++ needle ++ post)%string.
Proof.
  induction hay as [| c hay IH]; rewrite str_contains_eq;
    destruct (String.prefix needle _) eqn:Hprefix.
  - split; [intros _ | intros _; reflexivity].
    apply prefix_app in Hprefix. destruct Hprefix as [post Hpost].
    exists "", post. exact Hpost.
  - split; [discriminate |]. intros [pre [post Hhay]].
    destruct pre as [| p pre]; [| discriminate].
    assert (String.prefix needle "" = true) as Hyes
        by (apply prefix_app; exists post; exact Hhay).
    congruence.
  - split; [intros _ | intros _; reflexivity].
    apply prefix_app in Hprefix. destruct Hprefix as [post Hpost].
    exists "", post. exact Hpost.
  - rewrite IH. split.
    + intros [pre [post Hhay]]. exists (String c pre), post.
      simpl. now rewrite Hhay.
    + intros [pre [post Hhay]]. destruct pre as [| p pre].
      * assert (String.prefix needle (String c hay) = true) as Hyes
            by (apply prefix_app; exists post; exact Hhay).
        congruence.
      * simpl in Hhay. injection Hhay as _ Hhay. exists pre, post.
        exact Hhay.
Qed.

Lemma has_column_in (name : string) (dataframe : DataFrame) :
  has_column name dataframe = true <-> In name (column_names dataframe).
Proof.
  unfold has_column. rewrite existsb_exists. split.
  - intros [c [Hin Heq]]. apply String.eqb_eq in Heq. now subst c.
  - intros Hin. exists name. split; [exact Hin | apply String.eqb_refl].
Qed.

Lemma other_columns_drop (dataframe : DataFrame) :
  other_columns
    (filter (fun col => negb (existsb (String.eqb (fst col)) ["label"]))
       dataframe) =
  other_columns dataframe.
Proof.
  unfold other_columns.
  induction dataframe as [| [c cells] rest IH]; simpl; [reflexivity |].
  rewrite orb_false_r.
  destruct (String.eqb c "label") eqn:Hc; simpl; [exact IH |].
  rewrite Hc. simpl. f_equal. exact IH.
Qed.

(** What [search] answers once the sketch has answered a table. *)
Lemma outcome_search (sketch : Sketch) (query_string : string)
      (query_filter return_fields : pyval) (dataframe : DataFrame) :
  sketch_explore sketch query_string query_filter return_fields true
  = inr dataframe ->
  outcome (search sketch query_string query_filter return_fields) =
  let? requested := py_contains "label" return_fields in
  if requested then inr dataframe else drop ["label"] dataframe.
Proof.
  intros Hexplore. unfold search. rewrite outcome_call_bind, Hexplore.
  destruct (py_contains "label" return_fields) as [e | requested];
    [reflexivity |].
  destruct requested; simpl; [reflexivity |].
  destruct (drop ["label"] dataframe); reflexivity.
Qed.

(** X6: [search] makes exactly one [explore] call, with the query string, the
    filter and the fields it was given and [as_pandas=True], also when it
    ends in an exception; an exception of the call is the exception of
    [search]. *)
Theorem search_one_call (sketch : Sketch) (query_string : string)
        (query_filter return_fields : pyval) :
  trace (search sketch query_string query_filter return_fields) =
  [Explore query_string query_filter return_fields true] /\
  (forall e : exn,
      sketch_explore sketch query_string query_filter return_fields true
      = inl e ->
      outcome (search sketch query_string query_filter return_fields)
      = inl e).
Proof.
  split; [apply trace_search |].
  intros e Hexplore. unfold search.
  rewrite outcome_call_bind, Hexplore. reflexivity.
Qed.


(** X8: whatever [search] returns, the columns other than [label] are those of
    the table of the sketch: the same names, cells and order. *)
Theorem search_keeps_other_columns (sketch : Sketch) (query_string : string)
        (query_filter return_fields : pyval) (dataframe table : DataFrame) :
  sketch_explore sketch query_string query_filter return_fields true
  = inr dataframe ->
  outcome (search sketch query_string query_filter return_fields)
  = inr table ->
  other_columns table = other_columns dataframe.
Proof.
  intros Hexplore. rewrite (outcome_search _ _ _ _ _ Hexplore).
  destruct (py_contains "label" return_fields) as [e | requested]; simpl;
    [discriminate |].
  destruct requested.
  - intros Htable. injection Htable as <-. reflexivity.
  - unfold drop. simpl.
    destruct (has_column "label" dataframe); simpl; [| discriminate].
    intros Htable. injection Htable as <-. apply other_columns_drop.
Qed.

(** X9: with a list of field names as [return_fields] and a table of the
    sketch that has a [label] column, [search] returns, and the column is
    in the returned table exactly when ['label'] is one of the names. *)
Theorem search_label_field_list (sketch : Sketch) (query_string : string)
        (query_filter : pyval) (fields : list string) (dataframe : DataFrame) :
  sketch_explore sketch query_string query_filter (PyList (map PyStr fields))
    true = inr dataframe ->
  has_column "label" dataframe = true ->
  exists table,
    outcome (search sketch query_string query_filter
               (PyList (map PyStr fields))) = inr table
    /\ (has_column "label" table = true <-> In "label" fields).
Proof.
  intros Hexplore Hcol.
  rewrite (outcome_search _ _ _ _ _ Hexplore), py_contains_field_list.
  simpl.
  destruct (existsb (fun f => String.eqb f "label") fields) eqn:Hfields.
  - exists dataframe. split; [reflexivity |]. split; [intros _ | intros _; exact Hcol].
    apply existsb_exists in Hfields. destruct Hfields as [f [Hin Heq]].
    apply String.eqb_eq in Heq. now subst f.
  - rewrite (drop_label _ Hcol). eexists. split; [reflexivity |].
    rewrite has_column_filter. split; [discriminate |].
    intros Hin.
    assert (existsb (fun f => String.eqb f "label") fields = true) as Hyes
        by (apply existsb_exists; exists "label"; split;
            [exact Hin | reflexivity]).
    congruence.
Qed.

(** X10: with a string as [return_fields] and a table of the sketch that has a
    [label] column, [search] returns, and the column is in the returned
    table exactly when the string holds ['label'] somewhere, be it inside
    a longer field name. *)
Theorem search_label_field_string (sketch : Sketch) (query_string : string)
        (query_filter : pyval) (return_fields : string)
        (dataframe : DataFrame) :
  sketch_explore sketch query_string query_filter (PyStr return_fields) true
  = inr dataframe ->
  has_column "label" dataframe = true ->
  exists table,
    outcome (search sketch query_string query_filter (PyStr return_fields))
    = inr table
    /\ (has_column "label" table = true <->
        exists pre post,
          return_fields = (pre ++ "label" ++ post)%string).
Proof.
  intros Hexplore Hcol.
  rewrite (outcome_search _ _ _ _ _ Hexplore). simpl.
  pose proof (str_contains_app "label" return_fields) as Hsub.
  destruct (str_contains "label" return_fields).
  - exists dataframe. split; [reflexivity |].
    split; [intros _; now apply Hsub | intros _; exact Hcol].
  - rewrite (drop_label _ Hcol). eexists. split; [reflexivity |].
    rewrite has_column_filter. split; [discriminate |].
    intros Hin. apply Hsub in Hin. discriminate.
Qed.

(** X11: with [None], a boolean or an integer as [return_fields], [search]
    raises [TypeError] after the [explore] call has been made. *)
Theorem search_fields_not_iterable (sketch : Sketch) (query_string : string)
        (query_filter return_fields : pyval) (dataframe : DataFrame) :
  sketch_explore sketch query_string query_filter return_fields true
  = inr dataframe ->
  match return_fields with
  | PyNone | PyBool _ | PyInt _ => True
  | _ => False
  end ->
  search sketch query_string query_filter return_fields =
  ([Explore query_string query_filter return_fields true], inl TypeError).
Proof.
  intros Hexplore Hkind. unfold search. rewrite Hexplore.
  destruct return_fields; try contradiction; reflexivity.
Qed.

End SearchWrapper.

Section Command.
Context `{Runtime}.

(** ** The command from the options to the output *)

Lemma io_call_bind_ok {A B : Type} (e : event) (a : A) (k : A -> IO B) :
  io_bind (io_call e (inr a)) k = (e :: trace (k a), outcome (k a)).
Proof.
  unfold io_bind, io_call, trace, outcome. destruct (k a). reflexivity.
Qed.

Lemma io_call_bind_err {A B : Type} (e : event) (err : exn) (k : A -> IO B) :
  io_bind (io_call e (@inl exn A err)) k = ([e], inl err).
Proof. reflexivity. Qed.

(** Without the describe flag: the search, then the table in the output
    format, if the search returned one. *)
Lemma describe_or_search_search (ctx : Context) (header : bool)
      (output : option string) (return_fields query : string)
      (query_filter : pyval) :
  describe_or_search ctx header output return_fields false query query_filter =
  match outcome (search (obj_sketch ctx) query query_filter
                   (PyStr return_fields)) with
  | inl e => ([Explore query query_filter (PyStr return_fields) true], inl e)
  | inr table =>
      ([ Explore query query_filter (PyStr return_fields) true;
         Echo (format_output table (effective_format ctx output) header)
              (negb (String.eqb (effective_format ctx output) "csv")) ],
       inr tt)
  end.
Proof.
  unfold describe_or_search, effective_format.
  pose proof (trace_search (obj_sketch ctx) query query_filter
                (PyStr return_fields)) as Htrace.
  unfold trace, outcome, io_bind in *.
  destruct (search _ _ _ _) as [t [e | table]]; simpl in *; subst t.
  - reflexivity.
  - destruct (String.eqb _ "csv"); reflexivity.
Qed.

Lemma describe_or_search_describe (ctx : Context) (header : bool)
      (output : option string) (return_fields query : string)
      (query_filter : pyval) :
  describe_or_search ctx header output return_fields true query query_filter =
  describe_query query query_filter.
Proof. reflexivity. Qed.

(** X12: without a view and without the describe flag, when the search returns
    a table the command makes the one [explore] call with the query and the
    filter of the command line and then prints the table once, in the
    format of [--output] or else of the context, with a final newline
    unless the format is ['csv']. *)
Theorem explore_group_prints_table (ctx : Context) (query : string)
        (times : list string) (time_ranges : list (string * string))
        (labels : list string) (header : bool) (output : option string)
        (return_fields order : string) (limit : Z) (view : option string)
        (table : DataFrame) :
  truthy_str view = false ->
  outcome (search (obj_sketch ctx) query
             (filter_with_chips limit order
                (cli_chips time_ranges times labels))
             (PyStr return_fields)) = inr table ->
  explore_group ctx query times time_ranges labels header output return_fields
    order limit view false =
  ([ Explore query
       (filter_with_chips limit order (cli_chips time_ranges times labels))
       (PyStr return_fields) true;
     Echo (format_output table (effective_format ctx output) header)
          (negb (String.eqb (effective_format ctx output) "csv")) ],
   inr tt).
Proof.
  intros Hview Htable.
  rewrite (explore_group_without_view _ _ _ _ _ _ _ _ _ _ _ _ Hview).
  rewrite describe_or_search_search, Htable. reflexivity.
Qed.

(** X13: with a view and without the describe flag, when [get_view] returns
    the view and the search returns a table, the command makes the
    [get_view] call, then the one [explore] call, then prints the table
    once, in the same format and with the same newline rule as without a
    view. *)
Theorem explore_group_view_prints_table (ctx : Context) (query : string)
        (times : list string) (time_ranges : list (string * string))
        (labels : list string) (header : bool) (output : option string)
        (return_fields order : string) (limit : Z) (name : string)
        (saved : View) (table : DataFrame) :
  name <> "" ->
  sketch_get_view (obj_sketch ctx) name = inr saved ->
  outcome (search (obj_sketch ctx) (view_query_string saved)
             (view_query_filter saved) (PyStr return_fields)) = inr table ->
  explore_group ctx query times time_ranges labels header output return_fields
    order limit (Some name) false =
  ([ GetView name;
     Explore (view_query_string saved) (view_query_filter saved)
       (PyStr return_fields) true;
     Echo (format_output table (effective_format ctx output) header)
          (negb (String.eqb (effective_format ctx output) "csv")) ],
   inr tt).
Proof.
  intros Hname Hsaved Htable.
  rewrite (explore_group_with_view _ _ _ _ _ _ _ _ _ _ _ _
             (truthy_str_name name Hname)).
  simpl the_str. rewrite Hsaved, io_call_bind_ok.
  rewrite describe_or_search_search, Htable. reflexivity.
Qed.

(** X14: with an output format that is none of ['text'], ['csv'] and
    ['tabular'], the command without a view still makes the search; it then
    prints [None] with a newline and ends without an exception. *)
Theorem explore_group_unknown_format (ctx : Context) (query : string)
        (times : list string) (time_ranges : list (string * string))
        (labels : list string) (header : bool) (output : option string)
        (return_fields order : string) (limit : Z) (view : option string)
        (table : DataFrame) :
  truthy_str view = false ->
  effective_format ctx output <> "text" ->
  effective_format ctx output <> "csv" ->
  effective_format ctx output <> "tabular" ->
  outcome (search (obj_sketch ctx) query
             (filter_with_chips limit order
                (cli_chips time_ranges times labels))
             (PyStr return_fields)) = inr table ->
  explore_group ctx query times time_ranges labels header output return_fields
    order limit view false =
  ([ Explore query
       (filter_with_chips limit order (cli_chips time_ranges times labels))
       (PyStr return_fields) true;
     Echo None true ],
   inr tt).
Proof.
  intros Hview Htext Hcsv Htab Htable.
  rewrite (explore_group_without_view _ _ _ _ _ _ _ _ _ _ _ _ Hview).
  rewrite describe_or_search_search, Htable.
  unfold format_output.
  destruct (String.eqb_spec (effective_format ctx output) "text");
    [contradiction |].
  destruct (String.eqb_spec (effective_format ctx output) "csv");
    [contradiction |].
  destruct (String.eqb_spec (effective_format ctx output) "tabular");
    [contradiction |].
  reflexivity.
Qed.

(** X15: without a view and without the describe flag, an exception of the
    [explore] call ends the command with this exception, and nothing is
    printed. *)
Theorem explore_group_explore_raises (ctx : Context) (query : string)
        (times : list string) (time_ranges : list (string * string))
        (labels : list string) (header : bool) (output : option string)
        (return_fields order : string) (limit : Z) (view : option string)
        (e : exn) :
  truthy_str view = false ->
  sketch_explore (obj_sketch ctx) query
    (filter_with_chips limit order (cli_chips time_ranges times labels))
    (PyStr return_fields) true = inl e ->
  explore_group ctx query times time_ranges labels header output return_fields
    order limit view false =
  ([ Explore query
       (filter_with_chips limit order (cli_chips time_ranges times labels))
       (PyStr return_fields) true ],
   inl e).
Proof.
  intros Hview Hexplore.
  rewrite (explore_group_without_view _ _ _ _ _ _ _ _ _ _ _ _ Hview).
  rewrite describe_or_search_search.
  unfold search. rewrite outcome_call_bind, Hexplore. reflexivity.
Qed.

(** X16: with a view, an exception of the [get_view] call ends the command with
    this exception: no search is made and nothing is printed, with the
    describe flag or without. *)
Theorem explore_group_get_view_raises (ctx : Context) (query : string)
        (times : list string) (time_ranges : list (string * string))
        (labels : list string) (header : bool) (output : option string)
        (return_fields order : string) (limit : Z) (name : string)
        (describe : bool) (e : exn) :
  name <> "" ->
  sketch_get_view (obj_sketch ctx) name = inl e ->
  explore_group ctx query times time_ranges labels header output return_fields
    order limit (Some name) describe =
  ([GetView name], inl e).
Proof.
  intros Hname Hview.
  rewrite (explore_group_with_view _ _ _ _ _ _ _ _ _ _ _ _
             (truthy_str_name name Hname)).
  simpl the_str. rewrite Hview. apply io_call_bind_err.
Qed.

(** X17: an option given as the empty string is an option left out: with an
    empty view name the command makes no [get_view] call and takes the
    query and the flags of the command line, and with an empty [--output]
    it uses the format of the context. *)
Theorem explore_group_empty_options (ctx : Context) (query : string)
        (times : list string) (time_ranges : list (string * string))
        (labels : list string) (header : bool) (output : option string)
        (return_fields order : string) (limit : Z) (view : option string)
        (describe : bool) :
  explore_group ctx query times time_ranges labels header output return_fields
    order limit (Some "") describe =
  explore_group ctx query times time_ranges labels header output return_fields
    order limit None describe
  /\ explore_group ctx query times time_ranges labels header (Some "")
       return_fields order limit view describe =
     explore_group ctx query times time_ranges labels header None
       return_fields order limit view describe.
Proof.
  split; [| reflexivity].
  rewrite !explore_group_without_view by reflexivity. reflexivity.
Qed.

(** X18: with the describe flag, the header switch, the output format and the
    return fields change nothing of what the command does. *)
Theorem describe_ignores_output_options (ctx : Context) (query : string)
        (times : list string) (time_ranges : list (string * string))
        (labels : list string) (order : string) (limit : Z)
        (view : option string)
        (header header' : bool) (output output' : option string)
        (return_fields return_fields' : string) :
  explore_group ctx query times time_ranges labels header output return_fields
    order limit view true =
  explore_group ctx query times time_ranges labels header' output'
    return_fields' order limit view true.
Proof.
  destruct (truthy_str view) eqn:Hview.
  - rewrite !(explore_group_with_view _ _ _ _ _ _ _ _ _ _ _ _ Hview).
    reflexivity.
  - rewrite !(explore_group_without_view _ _ _ _ _ _ _ _ _ _ _ _ Hview).
    reflexivity.
Qed.

End Command.

Section CommandRequests.
Context `{Runtime}.

(** ** The calls of the command and the options that do not matter *)

Lemma describe_or_search_calls (ctx : Context) (header : bool)
      (output : option string) (return_fields : string) (describe : bool)
      (query : string) (query_filter : pyval) :
  filter is_get_view
    (trace (describe_or_search ctx header output return_fields describe query
              query_filter)) = []
  /\ length (filter is_explore
               (trace (describe_or_search ctx header output return_fields
                         describe query query_filter))) <= 1.
Proof.
  destruct describe.
  - split; [reflexivity | simpl; lia].
  - rewrite describe_or_search_search.
    destruct (outcome (search _ _ _ _)); split; simpl; try reflexivity; lia.
Qed.

Lemma describe_or_search_requests (ctx : Context) (header header' : bool)
      (output output' : option string) (return_fields : string)
      (describe : bool) (query : string) (query_filter : pyval) :
  requests (trace (describe_or_search ctx header output return_fields describe
                     query query_filter)) =
  requests (trace (describe_or_search ctx header' output' return_fields
                     describe query query_filter))
  /\ outcome (describe_or_search ctx header output return_fields describe
                query query_filter) =
     outcome (describe_or_search ctx header' output' return_fields describe
                query query_filter).
Proof.
  destruct describe.
  - split; reflexivity.
  - rewrite !describe_or_search_search.
    destruct (outcome (search _ _ _ _)); split; reflexivity.
Qed.

(** X19: the header switch and the output format only bear on what is printed:
    the calls to the sketch, their arguments and their order, and the way
    the command ends are the same for every choice of the two. *)
Theorem requests_ignore_output_options (ctx : Context) (query : string)
        (times : list string) (time_ranges : list (string * string))
        (labels : list string) (return_fields order : string) (limit : Z)
        (view : option string) (describe : bool)
        (header header' : bool) (output output' : option string) :
  requests (trace (explore_group ctx query times time_ranges labels header
                     output return_fields order limit view describe)) =
  requests (trace (explore_group ctx query times time_ranges labels header'
                     output' return_fields order limit view describe))
  /\ outcome (explore_group ctx query times time_ranges labels header output
                return_fields order limit view describe) =
     outcome (explore_group ctx query times time_ranges labels header' output'
                return_fields order limit view describe).
Proof.
  destruct (truthy_str view) eqn:Hview.
  - rewrite !(explore_group_with_view _ _ _ _ _ _ _ _ _ _ _ _ Hview).
    destruct (sketch_get_view (obj_sketch ctx) (the_str view))
      as [e | saved].
    + split; reflexivity.
    + rewrite !io_call_bind_ok.
      destruct (describe_or_search_requests ctx header header' output output'
                  return_fields describe (view_query_string saved)
                  (view_query_filter saved)) as [Hreq Hout].
      split; [| exact Hout].
      unfold requests in *. simpl. now rewrite Hreq.
  - rewrite !(explore_group_without_view _ _ _ _ _ _ _ _ _ _ _ _ Hview).
    apply describe_or_search_requests.
Qed.

(** X20: the command calls [get_view] once, with the view name, when a
    non-empty view name is given, and never otherwise; it calls [explore]
    at most once. *)
Theorem explore_group_calls (ctx : Context) (query : string)
        (times : list string) (time_ranges : list (string * string))
        (labels : list string) (header : bool) (output : option string)
        (return_fields order : string) (limit : Z) (view : option string)
        (describe : bool) :
  filter is_get_view
    (trace (explore_group ctx query times time_ranges labels header output
              return_fields order limit view describe)) =
  (if truthy_str view then [GetView (the_str view)] else [])
  /\ length (filter is_explore
               (trace (explore_group ctx query times time_ranges labels header
                         output return_fields order limit view describe)))
     <= 1.
Proof.
  destruct (truthy_str view) eqn:Hview.
  - rewrite (explore_group_with_view _ _ _ _ _ _ _ _ _ _ _ _ Hview).
    rewrite trace_call_bind.
    destruct (sketch_get_view (obj_sketch ctx) (the_str view))
      as [e | saved].
    + split; [reflexivity | simpl; lia].
    + destruct (describe_or_search_calls ctx header output return_fields
                  describe (view_query_string saved)
                  (view_query_filter saved)) as [Hview_calls Hexplore].
      simpl. rewrite Hview_calls. split; [reflexivity | exact Hexplore].
  - rewrite (explore_group_without_view _ _ _ _ _ _ _ _ _ _ _ _ Hview).
    apply describe_or_search_calls.
Qed.

(** X21: [--time t] is [--time-range t t] given after the other time ranges:
    moving the times to the end of the time ranges, each as the range from
    itself to itself, changes nothing of what the command does. *)
Theorem times_are_time_ranges (ctx : Context) (query : string)
        (times : list string) (time_ranges : list (string * string))
        (labels : list string) (header : bool) (output : option string)
        (return_fields order : string) (limit : Z) (view : option string)
        (describe : bool) :
  explore_group ctx query times time_ranges labels header output return_fields
    order limit view describe =
  explore_group ctx query []
    (time_ranges ++ map (fun t => (t, t)) times) labels header output
    return_fields order limit view describe.
Proof.
  destruct (truthy_str view) eqn:Hview.
  - rewrite !(explore_group_with_view _ _ _ _ _ _ _ _ _ _ _ _ Hview).
    reflexivity.
  - rewrite !(explore_group_without_view _ _ _ _ _ _ _ _ _ _ _ _ Hview).
    do 2 f_equal. unfold cli_chips.
    rewrite map_app, map_map, <- app_assoc. reflexivity.
Qed.

Lemma reserved_label_idempotent (label : string) :
  reserved_label (reserved_label label) = reserved_label label.
Proof.
  unfold reserved_label.
  destruct (String.eqb_spec label "star") as [-> | Hstar]; [reflexivity |].
  destruct (String.eqb_spec label "comment") as [-> | Hcomment];
    [reflexivity |].
  destruct (String.eqb_spec label "star"); [contradiction |].
  destruct (String.eqb_spec label "comment"); [contradiction |].
  reflexivity.
Qed.

(** X22: a label given in its reserved form is taken as it is: [--label
    __ts_star] does what [--label star] does, and likewise for
    [comment]; writing every label in its reserved form changes nothing
    of what the command does. *)
Theorem reserved_labels_pass (ctx : Context) (query : string)
        (times : list string) (time_ranges : list (string * string))
        (labels : list string) (header : bool) (output : option string)
        (return_fields order : string) (limit : Z) (view : option string)
        (describe : bool) :
  explore_group ctx query times time_ranges labels header output return_fields
    order limit view describe =
  explore_group ctx query times time_ranges
    (map (fun label =>
            if String.eqb label "star" then "__ts_star"
            else if String.eqb label "comment" then "__ts_comment"
            else label) labels)
    header output return_fields order limit view describe.
Proof.
  destruct (truthy_str view) eqn:Hview.
  - rewrite !(explore_group_with_view _ _ _ _ _ _ _ _ _ _ _ _ Hview).
    reflexivity.
  - rewrite !(explore_group_without_view _ _ _ _ _ _ _ _ _ _ _ _ Hview).
    do 2 f_equal. unfold cli_chips. do 2 f_equal.
    rewrite map_map. apply map_ext. intros label.
    change (if String.eqb label "star" then "__ts_star"
            else if String.eqb label "comment" then "__ts_comment"
            else label) with (reserved_label label).
    now rewrite reserved_label_idempotent.
Qed.

End CommandRequests.

(** ** The further properties at concrete inputs *)

Lemma get_filter_chips_shape_witness :
  Forall (chip_shape "datetime_range")
    [ chip_of "2020-01-01,2020-01-01" "datetime_range";
      chip_of "2020-01-01,2020-02-01" "datetime_range" ].
Proof.
  apply (@get_filter_chips_shape example_runtime
           [ PyStr "2020-01-01";
             PyTuple [PyStr "2020-01-01"; PyStr "2020-02-01"] ]
           "datetime_range").
  reflexivity.
Defined.

Lemma get_filter_chips_length_witness :
  length [chip_of "__ts_star" "label"; chip_of "seen" "label"] =
  length [PyStr "star"; PyStr "seen"].
Proof.
  apply (@get_filter_chips_length example_runtime
           [PyStr "star"; PyStr "seen"] "label").
  - left. reflexivity.
  - reflexivity.
Defined.

Lemma get_filter_chips_short_range_witness :
  @get_filter_chips example_runtime
    [PyStr "2020-01-01"; PyTuple [PyStr "2020-02-01"]] "datetime_range"
  = inl IndexError
  /\ exists chips,
       @get_filter_chips example_runtime
         [PyStr "2020-01-01"; PyTuple [PyStr "2020-02-01"; PyStr "2020-03-01"]]
         "datetime_range" = inr chips.
Proof.
  split.
  - apply (proj1 (@get_filter_chips_short_range example_runtime
                    [PyStr "2020-01-01"; PyTuple [PyStr "2020-02-01"]]
                    eq_refl)).
    reflexivity.
  - apply (proj2 (@get_filter_chips_short_range example_runtime
                    [ PyStr "2020-01-01";
                      PyTuple [PyStr "2020-02-01"; PyStr "2020-03-01"] ]
                    eq_refl)).
    reflexivity.
Defined.

Lemma search_one_call_witness :
  outcome (search unreachable_sketch "*" (filter_with_chips 40 "asc" [])
             (PyStr ""))
  = inl (Raised "connection refused").
Proof.
  apply (proj2 (search_one_call unreachable_sketch "*"
                  (filter_with_chips 40 "asc" []) (PyStr ""))).
  reflexivity.
Defined.


Lemma search_keeps_other_columns_witness :
  other_columns [("message", [PyStr "login"; PyStr "logout"])] =
  other_columns example_table.
Proof.
  apply (search_keeps_other_columns example_sketch "*"
           (filter_with_chips 40 "asc" []) (PyStr "")); reflexivity.
Defined.

Lemma search_label_field_list_witness :
  exists table,
    outcome (search example_sketch "*" (filter_with_chips 40 "asc" [])
               (PyList (map PyStr ["message"; "labels"]))) = inr table
    /\ (has_column "label" table = true <-> In "label" ["message"; "labels"]).
Proof.
  apply (search_label_field_list example_sketch "*"
           (filter_with_chips 40 "asc" []) ["message"; "labels"]
           example_table); reflexivity.
Defined.

Lemma search_label_field_string_witness :
  exists table,
    outcome (search example_sketch "*" (filter_with_chips 40 "asc" [])
               (PyStr "message")) = inr table
    /\ (has_column "label" table = true <->
        exists pre post, "message" = (pre ++ "label" ++ post)%string).
Proof.
  apply (search_label_field_string example_sketch "*"
           (filter_with_chips 40 "asc" []) "message" example_table);
    reflexivity.
Defined.

Lemma search_fields_not_iterable_witness :
  search example_sketch "*" (filter_with_chips 40 "asc" []) PyNone =
  ([Explore "*" (filter_with_chips 40 "asc" []) PyNone true], inl TypeError).
Proof.
  apply (search_fields_not_iterable example_sketch "*"
           (filter_with_chips 40 "asc" []) PyNone example_table);
    [reflexivity | exact I].
Defined.

Lemma explore_group_prints_table_witness :
  @explore_group example_runtime example_context "*" [] [] ["star"] false
    (Some "csv") "message" "asc" 40 None false =
  ([ Explore "*"
       (filter_with_chips 40 "asc" [chip_of "__ts_star" "label"])
       (PyStr "message") true;
     Echo (Some "<to_csv>") false ],
   inr tt).
Proof.
  apply (@explore_group_prints_table example_runtime example_context "*" []
           [] ["star"] false (Some "csv") "message" "asc" 40%Z None
           [("message", [PyStr "login"; PyStr "logout"])]); reflexivity.
Defined.

Lemma explore_group_view_prints_table_witness :
  @explore_group example_runtime example_context "*" [] [] ["star"] true None
    "message,label" "asc" 40 (Some "my_view") false =
  ([ GetView "my_view";
     Explore "data_type:syslog" (view_query_filter example_view)
       (PyStr "message,label") true;
     Echo (Some "<tabulate>") true ],
   inr tt).
Proof.
  apply (@explore_group_view_prints_table example_runtime example_context "*"
           [] [] ["star"] true None "message,label" "asc" 40%Z "my_view"
           example_view example_table);
    [discriminate | reflexivity | reflexivity].
Defined.

Lemma explore_group_unknown_format_witness :
  @explore_group example_runtime example_context "*" [] [] [] true
    (Some "json") "" "asc" 40 None false =
  ([ Explore "*" (filter_with_chips 40 "asc" []) (PyStr "") true;
     Echo None true ],
   inr tt).
Proof.
  apply (@explore_group_unknown_format example_runtime example_context "*" []
           [] [] true (Some "json") "" "asc" 40%Z None
           [("message", [PyStr "login"; PyStr "logout"])]);
    try discriminate; reflexivity.
Defined.

Lemma explore_group_explore_raises_witness :
  @explore_group example_runtime
    {| obj_sketch := unreachable_sketch; obj_output_format := "text" |}
    "*" [] [] [] true None "" "asc" 40 None false =
  ([Explore "*" (filter_with_chips 40 "asc" []) (PyStr "") true],
   inl (Raised "connection refused")).
Proof.
  apply (@explore_group_explore_raises example_runtime
           {| obj_sketch := unreachable_sketch; obj_output_format := "text" |}
           "*" [] [] [] true None "" "asc" 40%Z None
           (Raised "connection refused")); reflexivity.
Defined.

Lemma explore_group_get_view_raises_witness :
  @explore_group example_runtime example_context "*" [] [] [] true None ""
    "asc" 40 (Some "nope") true =
  ([GetView "nope"], inl (Raised "no such view")).
Proof.
  apply (@explore_group_get_view_raises example_runtime example_context "*" []
           [] [] true None "" "asc" 40%Z "nope" true (Raised "no such view"));
    [discriminate | reflexivity].
Defined.
